(** * The Streamlit sample dashboard ([manual-testing-sandbox/app.py])

    The script is a straight line of calls into three libraries: the
    Streamlit display API ([st.*]), numpy's global random generator
    ([np.random.randn]) and the pandas frame constructor ([pd.DataFrame]).
    It is embedded here as a term of a small script language whose only
    effects are library calls, [raise] and [try]/[except]; a render pass
    is the run of that term against a host that answers the calls. *)

From Stdlib Require Import ZArith List String Ascii Bool Lia.
From Stdlib Require Import DecimalString DecimalZ DecimalPos.
From Stdlib Require Import PrimFloat.
Import ListNotations.

Local Open Scope string_scope.
Local Open Scope list_scope.
Local Open Scope Z_scope.

(** ** Data *)

(** Exceptions a pass can meet.  [RerunException] is the control exception
    [st.experimental_rerun] raises to hand control back to the script
    runner; [HostError] stands for whatever else a library call raises. *)
Inductive exn : Type :=
| ValueError (msg : string)
| RerunException
| HostError (name : string).

(** numpy's generator, seen from outside: the sequence of standard-normal
    samples it is going to produce and how many have been consumed. *)
Record generator : Type := Generator {
  sample : nat -> float;
  cursor : nat
}.

(** A two-dimensional float64 array.  [width] is the second component of
    the shape, kept apart because an array with no rows still has one. *)
Record ndarray : Type := Ndarray {
  width : nat;
  rows : list (list float)
}.

Definition shape (a : ndarray) : nat * nat := (List.length (rows a), width a).

(** A pandas frame built from a 2-D array: labelled columns over the
    array's values, indexed by row position. *)
Record frame : Type := Frame {
  columns : list string;
  values : ndarray
}.

Definition nrows (d : frame) : nat := List.length (rows (values d)).
Definition ncolumns (d : frame) : nat := List.length (columns d).

(** ** Library functions the script evaluates *)

(** One draw from the generator. *)
Definition standard_normal (g : generator) : float * generator :=
  (sample g (cursor g), Generator (sample g) (S (cursor g))).

Fixpoint draw_row (c : nat) (g : generator) : list float * generator :=
  match c with
  | O => ([], g)
  | S c' =>
      let (x, g1) := standard_normal g in
      let (xs, g2) := draw_row c' g1 in
      (x :: xs, g2)
  end.

Fixpoint draw_rows (r c : nat) (g : generator)
  : list (list float) * generator :=
  match r with
  | O => ([], g)
  | S r' =>
      let (row, g1) := draw_row c g in
      let (rest, g2) := draw_rows r' c g1 in
      (row :: rest, g2)
  end.

(** [np.random.randn(d0, d1)]: a [d0] x [d1] array filled in row-major
    order from the global generator; a negative dimension is refused
    before anything is drawn. *)
Definition randn (d0 d1 : Z) (g : generator) : (exn + ndarray) * generator :=
  if (d0 <? 0) || (d1 <? 0)
  then (inl (ValueError "negative dimensions are not allowed"), g)
  else
    let (m, g') := draw_rows (Z.to_nat d0) (Z.to_nat d1) g in
    (inr (Ndarray (Z.to_nat d1) m), g').

(** [pd.DataFrame(a, columns=cols)]: the labels must match the second
    dimension of [a], also when [a] has no rows. *)
Definition pd_DataFrame (a : ndarray) (cols : list string) : exn + frame :=
  if Nat.eqb (List.length cols) (width a)
  then inr (Frame cols a)
  else inl (ValueError "Shape of passed values does not match the columns").

(** What [{number}] inside an f-string yields for an [int]: [str(number)],
    the decimal numeral with a leading minus sign for negatives. *)
Definition str_int (z : Z) : string :=
  NilZero.string_of_int (Z.to_int z).

(** [int(s)] on a decimal numeral, used to read [str_int] back. *)
Definition parse_int (s : string) : option Z :=
  option_map Z.of_int (NilZero.int_of_string s).

(** Python's [sub in s] on strings. *)
Fixpoint contains (sub s : string) : bool :=
  match s with
  | EmptyString => String.prefix sub EmptyString
  | String _ s' => String.prefix sub s || contains sub s'
  end.

(** ** Library calls answered by the host *)

Inductive call : Type :=
| st_title (body : string)
| st_sidebar_header (body : string)
| st_sidebar_slider (label : string) (min_value max_value value : Z)
| st_header (body : string)
| st_write (body : string)
| np_random_randn (d0 d1 : Z)
| st_subheader (body : string)
| st_dataframe (data : frame)
| st_line_chart (data : frame)
| st_area_chart (data : frame)
| st_button (label : string)
| st_experimental_rerun.

(** The type of what each call hands back to the script. *)
Definition ret (c : call) : Type :=
  match c with
  | st_sidebar_slider _ _ _ _ => Z
  | np_random_randn _ _ => ndarray
  | st_button _ => bool
  | _ => unit
  end.

(** ** Scripts *)

(** A script is a tree of library calls.  [TryExcept body handler rest] is
    [try: body / except BaseException as e: handler e] followed by [rest]. *)
Inductive script : Type :=
| Done
| Raise (e : exn)
| Call (c : call) (k : ret c -> script)
| TryExcept (body : script) (handler : exn -> script) (rest : script).

Declare Scope script_scope.
Delimit Scope script_scope with script.
Bind Scope script_scope with script.

Notation "x <- c ;; k" := (Call c (fun x => k%script))
  (at level 61, c at next level, right associativity) : script_scope.
Notation "c ;; k" := (Call c (fun _ => k%script))
  (at level 61, right associativity) : script_scope.
Notation "x <-? r ;; k" :=
  (match r with inl e => Raise e | inr x => k%script end)
  (at level 61, r at next level, right associativity) : script_scope.

(** The script, statement by statement. *)
Definition app : script :=
  (st_title "Databricks Apps上のシンプルなStreamlitアプリ" ;;
   st_sidebar_header "パラメータ設定" ;;
   number <- st_sidebar_slider "数値を選択してください" 0 100 50 ;;
   st_header "サンプルデータ表示" ;;
   st_write ("選択された値: " ++ str_int number)%string ;;
   a <- np_random_randn number 3 ;;
   data <-? pd_DataFrame a ["A"; "B"; "C"] ;;
   st_subheader "データテーブル" ;;
   st_dataframe data ;;
   st_subheader "ラインチャート" ;;
   st_line_chart data ;;
   st_subheader "エリアチャート" ;;
   st_area_chart data ;;
   pressed <- st_button "新しいデータを生成" ;;
   if (pressed : bool) then st_experimental_rerun ;; Done else Done)%script.

(** The same script with the body of the final [if] emptied ([pass]). *)
Definition app_without_rerun : script :=
  (st_title "Databricks Apps上のシンプルなStreamlitアプリ" ;;
   st_sidebar_header "パラメータ設定" ;;
   number <- st_sidebar_slider "数値を選択してください" 0 100 50 ;;
   st_header "サンプルデータ表示" ;;
   st_write ("選択された値: " ++ str_int number)%string ;;
   a <- np_random_randn number 3 ;;
   data <-? pd_DataFrame a ["A"; "B"; "C"] ;;
   st_subheader "データテーブル" ;;
   st_dataframe data ;;
   st_subheader "ラインチャート" ;;
   st_line_chart data ;;
   st_subheader "エリアチャート" ;;
   st_area_chart data ;;
   pressed <- st_button "新しいデータを生成" ;;
   if (pressed : bool) then Done else Done)%script.

(** [handler_free p]: no [try] statement occurs anywhere in [p]. *)
Fixpoint handler_free (p : script) : Prop :=
  match p with
  | Done => True
  | Raise _ => True
  | Call c k => forall x : ret c, handler_free (k x)
  | TryExcept _ _ _ => False
  end.

(** ** Running a script against a host *)

(** One entry of the pass's log: the call issued and, when the host
    answered it by raising, the exception. *)
Definition event : Type := call * option exn.

(** What a pass leaves behind: [outcome] is [None] when the script ran to
    its end and [Some e] when [e] left it; [log] lists the calls in the
    order they were issued; [final] is the host afterwards. *)
Record result (S : Type) : Type := Result {
  outcome : option exn;
  log : list event;
  final : S
}.
Arguments Result {S} _ _ _.
Arguments outcome {S} _.
Arguments log {S} _.
Arguments final {S} _.

Section Run.
Context {S : Type}.

(** The host: how each call is answered in a given state. *)
Variable handle : forall c : call, S -> (exn + ret c) * S.

Fixpoint run (p : script) (s : S) : result S :=
  match p with
  | Done => Result None [] s
  | Raise e => Result (Some e) [] s
  | Call c k =>
      match handle c s with
      | (inl e, s') => Result (Some e) [(c, Some e)] s'
      | (inr x, s') =>
          let r := run (k x) s' in
          Result (outcome r) ((c, None) :: log r) (final r)
      end
  | TryExcept body handler rest =>
      let r1 := run body s in
      match outcome r1 with
      | None =>
          let r2 := run rest (final r1) in
          Result (outcome r2) (log r1 ++ log r2) (final r2)
      | Some e =>
          let r2 := run (handler e) (final r1) in
          match outcome r2 with
          | None =>
              let r3 := run rest (final r2) in
              Result (outcome r3) (log r1 ++ log r2 ++ log r3) (final r3)
          | Some e' => Result (Some e') (log r1 ++ log r2) (final r2)
          end
      end
  end.
End Run.

(** The calls of a pass, in order. *)
Definition calls {S : Type} (r : result S) : list call := map fst (log r).

(** The calls that put an element on the page: everything but the draw
    from the generator and the re-run request. *)
Definition is_element (c : call) : bool :=
  match c with
  | np_random_randn _ _ | st_experimental_rerun => false
  | _ => true
  end.

Definition page {S : Type} (r : result S) : list call :=
  filter is_element (calls r).

(** The numbered step of the renderer's contract a call belongs to
    (1 title, 2 sidebar, 3 header and echo, 4 generation, 5 grid, 6 line
    chart, 7 area chart, 8 button and re-run); the captions set above the
    three views carry no number of their own. *)
Definition step_of (c : call) : option nat :=
  match c with
  | st_title _ => Some 1%nat
  | st_sidebar_header _ | st_sidebar_slider _ _ _ _ => Some 2%nat
  | st_header _ | st_write _ => Some 3%nat
  | np_random_randn _ _ => Some 4%nat
  | st_subheader _ => None
  | st_dataframe _ => Some 5%nat
  | st_line_chart _ => Some 6%nat
  | st_area_chart _ => Some 7%nat
  | st_button _ | st_experimental_rerun => Some 8%nat
  end.

Fixpoint steps (l : list call) : list nat :=
  match l with
  | [] => []
  | c :: l' =>
      match step_of c with
      | Some n => n :: steps l'
      | None => steps l'
      end
  end.

(** ** The reference host *)

(** What a pass can read or change besides the page: the value the user
    left the slider at ([None] before any interaction), whether this pass
    was started by a click on the button, and numpy's generator. *)
Record world : Type := World {
  slider_widget : option Z;
  button_widget : bool;
  np_random : generator
}.

(** What the slider returns: the value the user left it at, or the
    default handed to the widget when there is none. *)
Definition slider_answer (value : Z) (w : world) : Z :=
  match slider_widget w with
  | Some v => v
  | None => value
  end.

(** Streamlit, numpy and the script runner as the script meets them.  The
    slider refuses a default outside its range and otherwise returns
    [slider_answer]; the button returns whether it was clicked;
    [np.random.randn] draws from the generator; [st.experimental_rerun]
    raises [RerunException]; every other call puts its element on the
    page and returns [None]. *)
Definition streamlit (c : call) (w : world) : (exn + ret c) * world :=
  match c as c0 return (exn + ret c0) * world with
  | st_sidebar_slider _ min_value max_value value =>
      if (min_value <=? value) && (value <=? max_value)
      then (inr (slider_answer value w), w)
      else (inl (HostError "StreamlitAPIException"), w)
  | st_button _ => (inr (button_widget w), w)
  | np_random_randn d0 d1 =>
      let (a, g) := randn d0 d1 (np_random w) in
      (a, World (slider_widget w) (button_widget w) g)
  | st_experimental_rerun => (inl RerunException, w)
  | st_title _ | st_sidebar_header _ | st_header _ | st_write _
  | st_subheader _ | st_dataframe _ | st_line_chart _ | st_area_chart _ =>
      (inr tt, w)
  end.

(** A render pass of the script on the reference host. *)
Definition render (w : world) : result world := run streamlit app w.

(** The frame the script builds for [n] rows out of generator [g]. *)
Definition table (n : nat) (g : generator) : frame :=
  Frame ["A"; "B"; "C"] (Ndarray 3 (fst (draw_rows n 3 g))).

(** The generator after [k] further draws. *)
Definition advance (k : nat) (g : generator) : generator :=
  Generator (sample g) (cursor g + k).

(** The three views of the table: grid, line chart, area chart. *)
Definition is_view (c : call) : bool :=
  match c with
  | st_dataframe _ | st_line_chart _ | st_area_chart _ => true
  | _ => false
  end.

Definition views {S : Type} (r : result S) : list call :=
  filter is_view (calls r).

(** The calls of the script from its first statement to its last, for a
    slider answer [number], a frame [data] and a button answer [pressed]. *)
Definition script_calls (number : Z) (data : frame) (pressed : bool)
  : list call :=
  [ st_title "Databricks Apps上のシンプルなStreamlitアプリ";
    st_sidebar_header "パラメータ設定";
    st_sidebar_slider "数値を選択してください" 0 100 50;
    st_header "サンプルデータ表示";
    st_write ("選択された値: " ++ str_int number)%string;
    np_random_randn number 3;
    st_subheader "データテーブル";
    st_dataframe data;
    st_subheader "ラインチャート";
    st_line_chart data;
    st_subheader "エリアチャート";
    st_area_chart data;
    st_button "新しいデータを生成" ]
  ++ (if pressed then [st_experimental_rerun] else []).

(** [exception_ends_pass r]: an exception raised by a call of the pass is
    the last thing in its log and is what the pass ends with. *)
Definition exception_ends_pass {S : Type} (r : result S) : Prop :=
  forall pre c e post,
    log r = pre ++ (c, Some e) :: post ->
    post = [] /\ outcome r = Some e.

(** The text lines written to the page. *)
Definition is_write (c : call) : bool :=
  match c with
  | st_write _ => true
  | _ => false
  end.

(** The re-run request, and logs in which it does not occur. *)
Definition is_rerun (c : call) : bool :=
  match c with
  | st_experimental_rerun => true
  | _ => false
  end.

Definition rerun_free (l : list event) : bool :=
  forallb (fun ev => negb (is_rerun (fst ev))) l.

(** The cells of a frame read row after row, as numpy lays them out. *)
Definition cells (d : frame) : list float := List.concat (rows (values d)).

(** ** Concrete hosts *)

(** A generator whose samples alternate between two values. *)
Definition two_valued : generator :=
  Generator (fun n => if Nat.even n then 0.5%float else (-1.25)%float) 0.

(** The same samples for the first hundred and fifty draws, another
    value from there on. *)
Definition two_valued_then_zero : generator :=
  Generator
    (fun n => if Nat.ltb n 150 then sample two_valued n else 0%float) 0.

(** A host on which the line chart fails and everything else is as on
    the reference host. *)
Definition broken_line_chart (c : call) (w : world) : (exn + ret c) * world :=
  match c as c0 return (exn + ret c0) * world with
  | st_line_chart _ => (inl (HostError "line_chart"), w)
  | c0 => streamlit c0 w
  end.

(** ** Calls beyond the page *)

(** What a Python script on this host has at hand besides the library
    calls of [call]: [open(path, 'w').write(text)], a network request
    [urlopen(url)], and reading or assigning an entry of the session-state
    store, [st.session_state[key]]. *)
Inductive outside : Type :=
| open_write (path text : string)
| urlopen (url : string)
| session_state_get (key : string)
| session_state_set (key : string) (value : Z).

Definition outside_ret (o : outside) : Type :=
  match o with
  | urlopen _ => string
  | session_state_get _ => Z
  | _ => unit
  end.

(** Everything a statement can do: a library call or a call beyond. *)
Inductive action : Type :=
| lib (c : call)
| beyond (o : outside).

Definition action_ret (a : action) : Type :=
  match a with
  | lib c => ret c
  | beyond o => outside_ret o
  end.

Definition is_beyond (a : action) : bool :=
  match a with
  | lib _ => false
  | beyond _ => true
  end.

(** Straight-line scripts over [action]. *)
Inductive python : Type :=
| Finish
| Throw (e : exn)
| Do (a : action) (k : action_ret a -> python).

Declare Scope python_scope.
Delimit Scope python_scope with python.
Bind Scope python_scope with python.

Notation "x <- c ;; k" := (Do (lib c) (fun x => k%python))
  (at level 61, c at next level, right associativity) : python_scope.
Notation "c ;; k" := (Do (lib c) (fun _ => k%python))
  (at level 61, right associativity) : python_scope.
Notation "x <-? r ;; k" :=
  (match r with inl e => Throw e | inr x => k%python end)
  (at level 61, r at next level, right associativity) : python_scope.

(** The script again, statement by statement, as a term of [python]. *)
Definition app_python : python :=
  (st_title "Databricks Apps上のシンプルなStreamlitアプリ" ;;
   st_sidebar_header "パラメータ設定" ;;
   number <- st_sidebar_slider "数値を選択してください" 0 100 50 ;;
   st_header "サンプルデータ表示" ;;
   st_write ("選択された値: " ++ str_int number)%string ;;
   a <- np_random_randn number 3 ;;
   data <-? pd_DataFrame a ["A"; "B"; "C"] ;;
   st_subheader "データテーブル" ;;
   st_dataframe data ;;
   st_subheader "ラインチャート" ;;
   st_line_chart data ;;
   st_subheader "エリアチャート" ;;
   st_area_chart data ;;
   pressed <- st_button "新しいデータを生成" ;;
   if (pressed : bool)
   then st_experimental_rerun ;; Finish
   else Finish)%python.

Definition wide_event : Type := action * option exn.

Record wide_result (S : Type) : Type := WideResult {
  wide_outcome : option exn;
  wide_log : list wide_event;
  wide_final : S
}.
Arguments WideResult {S} _ _ _.
Arguments wide_outcome {S} _.
Arguments wide_log {S} _.
Arguments wide_final {S} _.

Section RunPython.
Context {S : Type}.
Variable handle : forall a : action, S -> (exn + action_ret a) * S.

Fixpoint run_python (p : python) (s : S) : wide_result S :=
  match p with
  | Finish => WideResult None [] s
  | Throw e => WideResult (Some e) [] s
  | Do a k =>
      match handle a s with
      | (inl e, s') => WideResult (Some e) [(a, Some e)] s'
      | (inr x, s') =>
          let r := run_python (k x) s' in
          WideResult (wide_outcome r) ((a, None) :: wide_log r) (wide_final r)
      end
  end.
End RunPython.

(** The machine a pass runs on: the reference host's [world], the files
    written so far, the network requests made so far with the answers the
    network would give, and the session-state store. *)
Record machine : Type := Machine {
  host : world;
  files : list (string * string);
  requests : list string;
  responses : string -> string;
  session_state : list (string * Z)
}.

Fixpoint lookup (key : string) (l : list (string * Z)) : option Z :=
  match l with
  | [] => None
  | (k, v) :: l' => if String.eqb key k then Some v else lookup key l'
  end.

(** The calls beyond the page on the machine: a write adds a file, a
    request is recorded and answered, an assignment adds an entry to the
    store, and reading a key that is not there raises [KeyError]. *)
Definition outside_host (o : outside) (m : machine)
  : (exn + outside_ret o) * machine :=
  match o as o0 return (exn + outside_ret o0) * machine with
  | open_write path text =>
      (inr tt,
       Machine (host m) ((path, text) :: files m) (requests m)
               (responses m) (session_state m))
  | urlopen url =>
      (inr (responses m url),
       Machine (host m) (files m) (url :: requests m)
               (responses m) (session_state m))
  | session_state_get key =>
      match lookup key (session_state m) with
      | Some v => (inr v, m)
      | None => (inl (HostError "KeyError"), m)
      end
  | session_state_set key value =>
      (inr tt,
       Machine (host m) (files m) (requests m)
               (responses m) ((key, value) :: session_state m))
  end.

(** Library calls go to the reference host, the others to [outside_host]. *)
Definition python_host (a : action) (m : machine)
  : (exn + action_ret a) * machine :=
  match a as a0 return (exn + action_ret a0) * machine with
  | lib c =>
      let (r, w) := streamlit c (host m) in
      (r, Machine w (files m) (requests m) (responses m) (session_state m))
  | beyond o => outside_host o m
  end.

(** A script that leaves a note in the store before it shows a title. *)
Definition noting_script : python :=
  Do (beyond (session_state_set "seen" 1))
     (fun _ => Do (lib (st_title "x")) (fun _ => Finish)).

(** ** Proof steps for a pass under an arbitrary host *)

(** An empty frame, standing in where a pass ends before it builds one. *)
Definition no_frame : frame := Frame [] (Ndarray 0 []).

Ltac host_step_as handle x :=
  match goal with
  | |- context [handle ?c ?s] =>
      destruct (handle c s) as [[? | x] ?]; cbn
  end.

Ltac host_step handle := let x := fresh "x" in host_step_as handle x.

Ltac stop_at number data pressed :=
  exists number, data, pressed; eexists; cbn;
  split; [reflexivity | split; [intros; try discriminate; reflexivity | reflexivity]].

(** ** Scripts without [try] *)

Section Propagation.
Context {S : Type}.
Variable handle : forall c : call, S -> (exn + ret c) * S.

(** In a script without [try], whatever a call raises ends the run
    there and then and is the run's outcome. *)
Lemma handler_free_propagates (p : script) :
  handler_free p -> forall s, exception_ends_pass (run handle p s).
Proof.
  induction p as [| e | c k IH | body _ handler _ rest _];
    intros Hfree s pre c0 e0 post Hlog.
  - destruct pre; discriminate Hlog.
  - destruct pre; discriminate Hlog.
  - cbn in Hlog |- *.
    destruct (handle c s) as [[e | x] s'].
    + cbn in Hlog |- *.
      destruct pre as [| ev pre].
      * injection Hlog as _ He Hpost. subst. auto.
      * destruct pre; discriminate Hlog.
    + cbn in Hlog |- *.
      destruct pre as [| ev pre]; [discriminate Hlog |].
      injection Hlog as _ Hrest.
      exact (IH x (Hfree x) s' pre c0 e0 post Hrest).
  - contradiction Hfree.
Qed.

End Propagation.

Lemma app_handler_free : handler_free app.
Proof.
  cbn. intros _ _ number _ _ a.
  destruct (pd_DataFrame a ["A"; "B"; "C"]) as [e | data]; cbn; [exact I |].
  intros _ _ _ _ _ _ pressed. destruct pressed; cbn; auto.
Qed.

Lemma app_without_rerun_handler_free : handler_free app_without_rerun.
Proof.
  cbn. intros _ _ number _ _ a.
  destruct (pd_DataFrame a ["A"; "B"; "C"]) as [e | data]; cbn; [exact I |].
  intros _ _ _ _ _ _ pressed. destruct pressed; cbn; auto.
Qed.

(** ** Where the re-run request sits in a log *)

Lemma rerun_free_no_split (l pre post : list event) (ans : option exn) :
  rerun_free l = true ->
  l = pre ++ (st_experimental_rerun, ans) :: post ->
  False.
Proof.
  intros Hfree ->. unfold rerun_free in Hfree.
  rewrite forallb_app in Hfree. cbn in Hfree.
  rewrite andb_false_r in Hfree. discriminate Hfree.
Qed.

Lemma split_at_rerun (l : list event) (a ans : option exn) :
  rerun_free l = true ->
  forall pre post,
    l ++ [(st_experimental_rerun, a)] = pre ++ (st_experimental_rerun, ans) :: post ->
    pre = l /\ post = [].
Proof.
  induction l as [| ev l IH]; intros Hfree pre post Heq.
  - destruct pre as [| ev' pre].
    + injection Heq as _ Hpost. auto.
    + destruct pre; discriminate Heq.
  - cbn in Hfree. apply andb_prop in Hfree as [Hev Hl].
    destruct pre as [| ev' pre].
    + injection Heq as Hhd _. rewrite Hhd in Hev. discriminate Hev.
    + injection Heq as Hhd Htl. subst ev'.
      destruct (IH Hl pre post Htl) as [-> ->]. auto.
Qed.

Ltac no_rerun H :=
  exfalso; eapply rerun_free_no_split; [| exact H]; reflexivity.

(** ** Drawing from the generator *)

Lemma advance_0 (g : generator) : advance 0 g = g.
Proof. destruct g as [f n]. unfold advance. cbn. now rewrite Nat.add_0_r. Qed.

Lemma advance_advance (a b : nat) (g : generator) :
  advance b (advance a g) = advance (a + b) g.
Proof. unfold advance. cbn. now rewrite Nat.add_assoc. Qed.

Lemma standard_normal_advance (g : generator) :
  snd (standard_normal g) = advance 1 g.
Proof. unfold standard_normal, advance. cbn. now rewrite Nat.add_1_r. Qed.

Lemma draw_row_spec (c : nat) :
  forall g,
    List.length (fst (draw_row c g)) = c /\
    snd (draw_row c g) = advance c g.
Proof.
  induction c as [| c IH]; intros g; cbn [draw_row].
  - split; [reflexivity | now rewrite advance_0].
  - pose proof (standard_normal_advance g) as Hg.
    destruct (standard_normal g) as [x g1]. cbn in Hg. subst g1.
    specialize (IH (advance 1 g)).
    destruct (draw_row c (advance 1 g)) as [xs g2]. cbn in IH |- *.
    destruct IH as [Hlen ->]. split; [now rewrite Hlen |].
    now rewrite advance_advance.
Qed.

Lemma draw_rows_spec (r c : nat) :
  forall g,
    List.length (fst (draw_rows r c g)) = r /\
    Forall (fun row => List.length row = c) (fst (draw_rows r c g)) /\
    snd (draw_rows r c g) = advance (r * c) g.
Proof.
  induction r as [| r IH]; intros g; cbn [draw_rows].
  - repeat split; [constructor | now rewrite advance_0].
  - destruct (draw_row_spec c g) as [Hrow Hg1].
    destruct (draw_row c g) as [row g1]. cbn in Hrow, Hg1. subst g1.
    specialize (IH (advance c g)).
    destruct (draw_rows r c (advance c g)) as [rest g2]. cbn in IH |- *.
    destruct IH as (Hlen & Hall & ->). repeat split.
    + now rewrite Hlen.
    + constructor; assumption.
    + now rewrite advance_advance.
Qed.

Lemma randn_in_range (n : Z) (g : generator) :
  0 <= n ->
  randn n 3 g =
    (inr (Ndarray 3 (fst (draw_rows (Z.to_nat n) 3 g))),
     advance (Z.to_nat n * 3) g).
Proof.
  intros Hn. unfold randn.
  replace (n <? 0) with false by (symmetry; apply Z.ltb_ge; exact Hn).
  cbn [orb Z.ltb Z.compare].
  destruct (draw_rows_spec (Z.to_nat n) 3 g) as (_ & _ & Hg).
  change (Z.to_nat 3) with 3%nat.
  destruct (draw_rows (Z.to_nat n) 3 g) as [m g']. cbn in Hg |- *.
  now rewrite Hg.
Qed.

Lemma randn_negative (n : Z) (g : generator) :
  n < 0 ->
  randn n 3 g = (inl (ValueError "negative dimensions are not allowed"), g).
Proof.
  intros Hn. unfold randn.
  replace (n <? 0) with true by (symmetry; apply Z.ltb_lt; exact Hn).
  reflexivity.
Qed.

(** ** A pass on the reference host *)

(** With a slider answer that is not negative the pass issues all of
    [script_calls] on the table drawn from the generator, then the re-run
    request when the button was clicked; the generator has moved on by
    three samples a row. *)
Lemma render_in_range (w : world) :
  0 <= slider_answer 50 w ->
  render w =
    Result
      (if button_widget w then Some RerunException else None)
      (map (fun c => (c, None))
           (script_calls (slider_answer 50 w)
              (table (Z.to_nat (slider_answer 50 w)) (np_random w)) false)
       ++ (if button_widget w
           then [(st_experimental_rerun, Some RerunException)] else []))
      (World (slider_widget w) (button_widget w)
         (advance (Z.to_nat (slider_answer 50 w) * 3) (np_random w))).
Proof.
  intros Hn. unfold render. cbn [run app streamlit].
  change ((0 <=? 50) && (50 <=? 100)) with true. cbv iota.
  rewrite (randn_in_range _ _ Hn). cbv iota beta.
  change (pd_DataFrame
            (Ndarray 3 (fst (draw_rows (Z.to_nat (slider_answer 50 w)) 3 (np_random w))))
            ["A"; "B"; "C"])
    with (@inr exn frame (table (Z.to_nat (slider_answer 50 w)) (np_random w))).
  cbn [run streamlit button_widget slider_widget np_random outcome log final].
  destruct (button_widget w); reflexivity.
Qed.

(** A negative slider answer ends the pass at the draw, which numpy
    refuses; nothing has been drawn. *)
Lemma render_negative (w : world) :
  slider_answer 50 w < 0 ->
  render w =
    Result
      (Some (ValueError "negative dimensions are not allowed"))
      (map (fun c => (c, None))
           (firstn 5 (script_calls (slider_answer 50 w) no_frame false))
       ++ [(np_random_randn (slider_answer 50 w) 3,
            Some (ValueError "negative dimensions are not allowed"))])
      w.
Proof.
  intros Hn. unfold render. cbn [run app streamlit].
  change ((0 <=? 50) && (50 <=? 100)) with true. cbv iota.
  rewrite (randn_negative _ _ Hn). cbv iota beta.
  destruct w as [sw bw g]. reflexivity.
Qed.

(** The pass of [app_without_rerun] on the reference host differs from
    that of [app] only by the request at the end. *)
Lemma render_without_rerun (w : world) :
  final (run streamlit app_without_rerun w) = final (render w) /\
  (0 <= slider_answer 50 w ->
   outcome (run streamlit app_without_rerun w) = None).
Proof.
  destruct (Z.lt_ge_cases (slider_answer 50 w) 0) as [Hn | Hn].
  - rewrite (render_negative w Hn). split; [| lia].
    cbn [run app_without_rerun streamlit].
    change ((0 <=? 50) && (50 <=? 100)) with true. cbv iota.
    rewrite (randn_negative _ _ Hn). cbv iota beta.
    destruct w as [sw bw g]. reflexivity.
  - rewrite (render_in_range w Hn).
    cbn [run app_without_rerun streamlit].
    change ((0 <=? 50) && (50 <=? 100)) with true. cbv iota.
    rewrite (randn_in_range _ _ Hn). cbv iota beta.
    change (pd_DataFrame
              (Ndarray 3 (fst (draw_rows (Z.to_nat (slider_answer 50 w)) 3 (np_random w))))
              ["A"; "B"; "C"])
      with (@inr exn frame (table (Z.to_nat (slider_answer 50 w)) (np_random w))).
    cbn [run streamlit button_widget slider_widget np_random outcome log final].
    destruct (button_widget w); split; reflexivity.
Qed.

(** The table of a pass: as many rows as asked for, three cells a row. *)
Lemma table_shape (n : nat) (g : generator) :
  nrows (table n g) = n /\
  columns (table n g) = ["A"; "B"; "C"] /\
  ncolumns (table n g) = 3%nat /\
  shape (values (table n g)) = (n, 3%nat) /\
  Forall (fun row => List.length row = 3%nat) (rows (values (table n g))).
Proof.
  destruct (draw_rows_spec n 3 g) as (Hlen & Hall & _).
  unfold nrows, ncolumns, shape, table. cbn.
  rewrite Hlen. repeat split; assumption.
Qed.

Lemma views_in_range (w : world) :
  0 <= slider_answer 50 w ->
  views (render w) =
    let data := table (Z.to_nat (slider_answer 50 w)) (np_random w) in
    [st_dataframe data; st_line_chart data; st_area_chart data].
Proof.
  intros Hn. rewrite (render_in_range w Hn). unfold views, calls.
  destruct (button_widget w); reflexivity.
Qed.

Lemma calls_in_range (w : world) :
  0 <= slider_answer 50 w ->
  calls (render w) =
    script_calls (slider_answer 50 w)
      (table (Z.to_nat (slider_answer 50 w)) (np_random w))
      (button_widget w).
Proof.
  intros Hn. rewrite (render_in_range w Hn). unfold calls.
  destruct (button_widget w); reflexivity.
Qed.

(** ** Strings *)

Lemma prefix_refl (s : string) : String.prefix s s = true.
Proof.
  induction s as [| a s IH]; cbn; [reflexivity |].
  destruct (ascii_dec a a) as [_ | Hne]; [exact IH | now elim Hne].
Qed.

Lemma contains_self (s : string) : contains s s = true.
Proof.
  destruct s as [| a s]; [reflexivity |].
  cbn [contains]. now rewrite prefix_refl.
Qed.

Lemma contains_append (pre sub : string) :
  contains sub (pre ++ sub)%string = true.
Proof.
  induction pre as [| a pre IH]; cbn [String.append contains].
  - apply contains_self.
  - rewrite IH. apply orb_true_r.
Qed.

(** [str_int] writes the numeral that reads back as the number. *)
Lemma parse_str_int (z : Z) : parse_int (str_int z) = Some z.
Proof.
  unfold parse_int, str_int.
  rewrite NilZero.isi.
  - cbn [option_map]. now rewrite DecimalZ.of_to.
  - destruct z; cbn; intros H; try discriminate H.
    injection H as H. exact (Unsigned.to_uint_nonnil _ H).
  - destruct z; cbn; intros H; try discriminate H.
    injection H as H. exact (Unsigned.to_uint_nonnil _ H).
Qed.

(** ** The table (C1, C2, C4) *)

(** C1: for every slider value N between 0 and 100 the table built in the
    pass has exactly N rows of three cells under the columns A, B and C,
    and that one table is what the data grid, the line chart and the area
    chart are given. *)
Theorem table_has_slider_rows_and_three_columns (w : world) (N : Z) :
  slider_widget w = Some N ->
  0 <= N <= 100 ->
  exists data : frame,
    views (render w) =
      [st_dataframe data; st_line_chart data; st_area_chart data] /\
    Z.of_nat (nrows data) = N /\
    columns data = ["A"; "B"; "C"] /\
    ncolumns data = 3%nat /\
    Forall (fun row => List.length row = 3%nat) (rows (values data)).
Proof.
  intros Hw [Hlo _].
  assert (Hans : slider_answer 50 w = N) by (unfold slider_answer; now rewrite Hw).
  exists (table (Z.to_nat N) (np_random w)).
  destruct (table_shape (Z.to_nat N) (np_random w)) as (Hr & Hc & Hn & _ & Hall).
  split; [| split; [| split; [| split]]]; try assumption.
  - rewrite views_in_range by lia. now rewrite Hans.
  - rewrite Hr. apply Z2Nat.id. exact Hlo.
Qed.

(** The statement above at a slider left on 37. *)
Lemma table_has_slider_rows_and_three_columns_witness :
  slider_widget (World (Some 37) false two_valued) = Some 37 /\
  0 <= 37 <= 100 /\
  exists data : frame,
    views (render (World (Some 37) false two_valued)) =
      [st_dataframe data; st_line_chart data; st_area_chart data] /\
    Z.of_nat (nrows data) = 37 /\
    columns data = ["A"; "B"; "C"] /\
    ncolumns data = 3%nat /\
    Forall (fun row => List.length row = 3%nat) (rows (values data)).
Proof.
  split; [reflexivity |]. split; [lia |].
  apply (table_has_slider_rows_and_three_columns
           (World (Some 37) false two_valued) 37); [reflexivity | lia].
Defined.

(** C2: the slider is created with minimum 0, maximum 100 and default 50;
    on the first pass, before any interaction, it answers 50, the echo
    reads 50, fifty rows are asked of the generator and the table shown
    has fifty rows. *)
Theorem first_pass_uses_default_fifty (g : generator) :
  let r := render (World None false g) in
  nth_error (calls r) 2 =
    Some (st_sidebar_slider "数値を選択してください" 0 100 50) /\
  slider_answer 50 (World None false g) = 50 /\
  nth_error (calls r) 4 = Some (st_write "選択された値: 50") /\
  nth_error (calls r) 5 = Some (np_random_randn 50 3) /\
  views r =
    [st_dataframe (table 50 g); st_line_chart (table 50 g);
     st_area_chart (table 50 g)] /\
  nrows (table 50 g) = 50%nat /\
  outcome r = None.
Proof.
  cbv zeta.
  assert (Hn : 0 <= slider_answer 50 (World None false g)) by (cbn; lia).
  rewrite (calls_in_range _ Hn), (views_in_range _ Hn), (render_in_range _ Hn).
  pose proof (table_shape 50 g) as (Hr & _).
  repeat split; solve [reflexivity | exact Hr].
Qed.

(** C4: with the slider at 0 the pass meets no error: the table has no
    rows and still its three columns, the grid and both charts are each
    given that empty table, every call is answered, nothing is drawn from
    the generator, and the pass ends normally or, after a click, with the
    re-run request. *)
Theorem zero_rows_pass_completes (b : bool) (g : generator) :
  let r := render (World (Some 0) b g) in
  let data := Frame ["A"; "B"; "C"] (Ndarray 3 []) in
  nrows data = 0%nat /\
  ncolumns data = 3%nat /\
  views r = [st_dataframe data; st_line_chart data; st_area_chart data] /\
  log r =
    map (fun c => (c, None)) (script_calls 0 data false)
    ++ (if b then [(st_experimental_rerun, Some RerunException)] else []) /\
  outcome r = (if b then Some RerunException else None) /\
  final r = World (Some 0) b g.
Proof.
  cbv zeta. unfold render, views, calls.
  destruct b; cbn; repeat split; reflexivity.
Qed.

(** ** The echo (C3) *)

(** C3: for every slider value N between 0 and 100 the one text the pass
    writes is the label followed by the decimal numeral of N, so it
    contains that numeral, and the numeral reads back as N. *)
Theorem echo_contains_slider_value (w : world) (N : Z) :
  slider_widget w = Some N ->
  0 <= N <= 100 ->
  exists text : string,
    filter is_write (calls (render w)) = [st_write text] /\
    text = ("選択された値: " ++ str_int N)%string /\
    contains (str_int N) text = true /\
    parse_int (str_int N) = Some N.
Proof.
  intros Hw [Hlo _].
  assert (Hans : slider_answer 50 w = N) by (unfold slider_answer; now rewrite Hw).
  exists ("選択された値: " ++ str_int N)%string.
  split; [| split; [reflexivity | split]].
  - rewrite calls_in_range by lia. rewrite Hans.
    destruct (button_widget w); reflexivity.
  - apply contains_append.
  - apply parse_str_int.
Qed.

(** The echo of a pass with the slider left on 37. *)
Lemma echo_contains_slider_value_witness :
  slider_widget (World (Some 37) false two_valued) = Some 37 /\
  0 <= 37 <= 100 /\
  exists text : string,
    filter is_write (calls (render (World (Some 37) false two_valued))) =
      [st_write text] /\
    text = ("選択された値: " ++ str_int 37)%string /\
    contains (str_int 37) text = true /\
    parse_int (str_int 37) = Some 37.
Proof.
  split; [reflexivity |]. split; [lia |].
  apply (echo_contains_slider_value
           (World (Some 37) false two_valued) 37); [reflexivity | lia].
Defined.

(** The numeral of 37 is the two characters 3 and 7, and the echo for a
    slider at 37 contains them. *)
Example echo_for_37 :
  str_int 37 = "37" /\
  contains "37" ("選択された値: " ++ str_int 37)%string = true.
Proof. split; reflexivity. Qed.

(** ** The order of a pass (C5, C10) *)

(** C5: on every invocation, whatever the host answers, the calls of the
    pass are an initial segment of one fixed sequence, [script_calls]:
    title, sidebar header and slider, header and echo, the draw, then grid,
    line chart and area chart each under its caption, then the button and,
    after a click, the re-run request; the numbered steps of that sequence
    run from 1 to 8 in order.  A pass that ends without exception has
    issued the whole sequence, and on the reference host a pass with a
    slider answer that is not negative issues exactly that sequence for
    the answer, the table drawn and the state of the button. *)
Theorem render_pass_order :
  (forall (S : Type) (handle : forall c : call, S -> (exn + ret c) * S)
          (s : S),
     exists number data pressed rest,
       calls (run handle app s) ++ rest = script_calls number data pressed /\
       (outcome (run handle app s) = None -> rest = []) /\
       steps (script_calls number data pressed) =
         [1; 2; 2; 3; 3; 4; 5; 6; 7; 8]%nat
         ++ (if pressed then [8%nat] else [])) /\
  (forall w : world,
     0 <= slider_answer 50 w ->
     calls (render w) =
       script_calls (slider_answer 50 w)
         (table (Z.to_nat (slider_answer 50 w)) (np_random w))
         (button_widget w)).
Proof.
  split; [| exact calls_in_range].
  intros S handle s. unfold calls. cbn [run app].
  do 2 (host_step handle; [stop_at 0 no_frame false |]).
  host_step_as handle number; [stop_at 0 no_frame false |].
  do 2 (host_step handle; [stop_at number no_frame false |]).
  host_step_as handle a; [stop_at number no_frame false |].
  destruct (pd_DataFrame a ["A"; "B"; "C"]) as [e | data]; cbn;
    [stop_at number no_frame false |].
  do 6 (host_step handle; [stop_at number data false |]).
  host_step_as handle pressed; [stop_at number data false |].
  destruct pressed; cbn.
  - host_step handle; stop_at number data true.
  - stop_at number data false.
Qed.

(** C10: when the re-run request appears in the log of a pass, under any
    host, it is the last entry, and before it stand the thirteen calls of
    [script_calls] from the title to the button, every one of them
    answered without exception: the whole page is out before the request
    is made. *)
Theorem rerun_request_comes_last
  (S : Type) (handle : forall c : call, S -> (exn + ret c) * S) (s : S)
  (pre post : list event) (ans : option exn) :
  log (run handle app s) = pre ++ (st_experimental_rerun, ans) :: post ->
  post = [] /\
  exists number data,
    pre = map (fun c => (c, None)) (script_calls number data false) /\
    map fst pre = script_calls number data false.
Proof.
  cbn [run app].
  do 2 (host_step handle; [intros H; no_rerun H |]).
  host_step_as handle number; [intros H; no_rerun H |].
  do 2 (host_step handle; [intros H; no_rerun H |]).
  host_step_as handle a; [intros H; no_rerun H |].
  destruct (pd_DataFrame a ["A"; "B"; "C"]) as [e | data]; cbn;
    [intros H; no_rerun H |].
  do 6 (host_step handle; [intros H; no_rerun H |]).
  host_step_as handle pressed; [intros H; no_rerun H |].
  destruct pressed; cbn; [| intros H; no_rerun H].
  host_step handle; intros H.
  - apply (split_at_rerun
             (map (fun c => (c, None)) (script_calls number data false))
             (Some e) ans eq_refl) in H.
    destruct H as [-> ->]. split; [reflexivity |].
    exists number, data. split; reflexivity.
  - apply (split_at_rerun
             (map (fun c => (c, None)) (script_calls number data false))
             None ans eq_refl) in H.
    destruct H as [-> ->]. split; [reflexivity |].
    exists number, data. split; reflexivity.
Qed.

(** A pass on the reference host started by a click, slider on 2. *)
Lemma rerun_request_comes_last_witness :
  log (run streamlit app (World (Some 2) true two_valued)) =
    map (fun c => (c, None)) (script_calls 2 (table 2 two_valued) false)
    ++ (st_experimental_rerun, Some RerunException) :: [] /\
  ([] = ([] : list event) /\
   exists number data,
     map (fun c => (c, @None exn)) (script_calls 2 (table 2 two_valued) false) =
       map (fun c => (c, None)) (script_calls number data false) /\
     map fst
       (map (fun c => (c, @None exn)) (script_calls 2 (table 2 two_valued) false)) =
       script_calls number data false).
Proof.
  split; [reflexivity |].
  apply (rerun_request_comes_last world streamlit
           (World (Some 2) true two_valued)
           (map (fun c => (c, None)) (script_calls 2 (table 2 two_valued) false))
           [] (Some RerunException)).
  reflexivity.
Defined.

(** ** The re-run call (C6) *)

(** C6: under any host and from any state, the script and the script
    with the re-run call taken out put the same elements on the page in
    the same order; their logs differ at most by the request itself at the
    end.  On the reference host the two leave the same state behind. *)
Theorem rerun_call_adds_no_element :
  (forall (S : Type) (handle : forall c : call, S -> (exn + ret c) * S)
          (s : S),
     page (run handle app s) = page (run handle app_without_rerun s) /\
     (calls (run handle app s) = calls (run handle app_without_rerun s) \/
      calls (run handle app s) =
        calls (run handle app_without_rerun s) ++ [st_experimental_rerun])) /\
  (forall w : world,
     final (run streamlit app_without_rerun w) = final (run streamlit app w)).
Proof.
  split; [| intros w; exact (proj1 (render_without_rerun w))].
  intros S handle s.
  unfold page, calls. cbn [run app app_without_rerun].
  do 5 (host_step handle; [split; [reflexivity | left; reflexivity] |]).
  host_step_as handle a; [split; [reflexivity | left; reflexivity] |].
  destruct (pd_DataFrame a ["A"; "B"; "C"]) as [e | data]; cbn;
    [split; [reflexivity | left; reflexivity] |].
  do 6 (host_step handle; [split; [reflexivity | left; reflexivity] |]).
  host_step_as handle pressed; [split; [reflexivity | left; reflexivity] |].
  destruct pressed; cbn.
  - host_step handle; (split; [reflexivity | right; reflexivity]).
  - split; [reflexivity | left; reflexivity].
Qed.

(** ** Exceptions (C7) *)

(** C7: the script has no [try]; under any host, an exception raised by
    any call of the pass, a widget or the generator alike, is the last
    thing the pass does (no call follows it, none before it had raised)
    and is what the pass ends with. *)
Theorem exceptions_leave_the_pass
  (S : Type) (handle : forall c : call, S -> (exn + ret c) * S) (s : S)
  (pre post : list event) (c : call) (e : exn) :
  log (run handle app s) = pre ++ (c, Some e) :: post ->
  handler_free app /\
  post = [] /\
  Forall (fun ev : event => snd ev = None) pre /\
  outcome (run handle app s) = Some e.
Proof.
  intros Hlog.
  pose proof (handler_free_propagates handle app app_handler_free s) as Hprop.
  destruct (Hprop pre c e post Hlog) as [Hpost Hout].
  split; [exact app_handler_free |]. split; [exact Hpost |].
  split; [| exact Hout].
  apply Forall_forall. intros [c' [e' |]] Hin; [exfalso | reflexivity].
  apply in_split in Hin as (p1 & p2 & ->).
  rewrite <- app_assoc, <- app_comm_cons in Hlog.
  destruct (Hprop p1 c' e' _ Hlog) as [Hnil _].
  destruct p2; discriminate Hnil.
Qed.

(** A pass on a host whose line chart raises: it ends there, after the
    grid and before the area chart and the button. *)
Lemma exceptions_leave_the_pass_witness :
  log (run broken_line_chart app (World (Some 1) false two_valued)) =
    map (fun c => (c, None))
        (firstn 9 (script_calls 1 (table 1 two_valued) false))
    ++ (st_line_chart (table 1 two_valued), Some (HostError "line_chart"))
       :: [] /\
  (handler_free app /\
   [] = ([] : list event) /\
   Forall (fun ev : event => snd ev = None)
     (map (fun c => (c, None))
          (firstn 9 (script_calls 1 (table 1 two_valued) false))) /\
   outcome (run broken_line_chart app (World (Some 1) false two_valued)) =
     Some (HostError "line_chart")).
Proof.
  split; [reflexivity |].
  apply (exceptions_leave_the_pass world broken_line_chart
           (World (Some 1) false two_valued)
           (map (fun c => (c, None))
                (firstn 9 (script_calls 1 (table 1 two_valued) false)))
           [] (st_line_chart (table 1 two_valued)) (HostError "line_chart")).
  reflexivity.
Defined.

(** ** What a pass changes (C8) *)

(** C8, as stated, fails: the first pass on a fresh host leaves numpy's
    generator a hundred and fifty samples further on, so something
    outside the page has been modified. *)
Lemma first_pass_moves_generator :
  final (render (World None false two_valued)) <> World None false two_valued /\
  cursor (np_random (final (render (World None false two_valued)))) = 150%nat.
Proof.
  assert (Hc : cursor (np_random (final (render (World None false two_valued))))
               = 150%nat).
  { rewrite render_in_range by (cbn; lia). reflexivity. }
  split; [| exact Hc].
  intros H. rewrite H in Hc. discriminate Hc.
Qed.

(** The script as a term of [python] makes, under any host, the calls
    that [app] makes under that host's answers to the library calls, and
    ends the same way. *)
Lemma app_python_agrees
  (S : Type) (handle : forall a : action, S -> (exn + action_ret a) * S)
  (s : S) :
  wide_log (run_python handle app_python s) =
    map (fun ev : event => (lib (fst ev), snd ev))
        (log (run (fun c => handle (lib c)) app s)) /\
  wide_outcome (run_python handle app_python s) =
    outcome (run (fun c => handle (lib c)) app s) /\
  wide_final (run_python handle app_python s) =
    final (run (fun c => handle (lib c)) app s).
Proof.
  cbn [run_python app_python run app].
  do 5 (host_step handle; [repeat split |]).
  host_step_as handle a; [repeat split |].
  destruct (pd_DataFrame a ["A"; "B"; "C"]) as [e | data]; cbn;
    [repeat split |].
  do 6 (host_step handle; [repeat split |]).
  host_step_as handle pressed; [repeat split |].
  destruct pressed; cbn; [host_step handle |]; repeat split.
Qed.

(** The machine after a pass: the generator has moved on, the files, the
    requests and the store are those it started with. *)
Lemma machine_after_pass (m : machine) :
  wide_final (run_python python_host app_python m) =
    Machine
      (World (slider_widget (host m)) (button_widget (host m))
         (advance (Z.to_nat (slider_answer 50 (host m)) * 3)
                  (np_random (host m))))
      (files m) (requests m) (responses m) (session_state m).
Proof.
  cbn [run_python app_python python_host streamlit host files requests
       responses session_state].
  change ((0 <=? 50) && (50 <=? 100)) with true. cbv iota.
  cbn [run_python python_host streamlit host files requests responses
       session_state].
  destruct (Z.lt_ge_cases (slider_answer 50 (host m)) 0) as [Hn | Hn].
  - rewrite (randn_negative _ _ Hn). cbn [wide_final].
    replace (Z.to_nat (slider_answer 50 (host m))) with 0%nat by lia.
    cbn [Nat.mul]. rewrite advance_0. reflexivity.
  - rewrite (randn_in_range _ _ Hn). cbv iota beta.
    change (pd_DataFrame
              (Ndarray 3
                 (fst (draw_rows (Z.to_nat (slider_answer 50 (host m))) 3
                         (np_random (host m)))))
              ["A"; "B"; "C"])
      with (@inr exn frame
              (table (Z.to_nat (slider_answer 50 (host m)))
                     (np_random (host m)))).
    cbn [run_python python_host streamlit host files requests responses
         session_state button_widget slider_widget np_random
         wide_outcome wide_log wide_final].
    destruct (button_widget (host m)); reflexivity.
Qed.

(** The store is within a script's reach: a script that assigns an entry
    leaves the store changed. *)
Example store_can_be_written (m : machine) :
  session_state (wide_final (run_python python_host noting_script m)) =
    ("seen", 1) :: session_state m.
Proof. reflexivity. Qed.

(** C8, amended: a pass draws from numpy's generator and leaves it moved
    on by three samples for each row of the table (none when the slider
    answer is negative and the draw is refused), its sequence of samples
    unchanged.  Apart from that the script reaches nothing beyond the
    page: under any host every call of the pass is one of the library
    calls of [app], none writes a file, makes a network request or reads
    or assigns the session-state store; and on the machine the files, the
    requests made and the store are after the pass what they were before
    it. *)
Theorem pass_modifies_only_generator :
  (forall (S : Type)
          (handle : forall a : action, S -> (exn + action_ret a) * S)
          (s : S),
     Forall (fun ev : wide_event => is_beyond (fst ev) = false)
            (wide_log (run_python handle app_python s)) /\
     wide_log (run_python handle app_python s) =
       map (fun ev : event => (lib (fst ev), snd ev))
           (log (run (fun c => handle (lib c)) app s))) /\
  (forall m : machine,
     files (wide_final (run_python python_host app_python m)) = files m /\
     requests (wide_final (run_python python_host app_python m)) =
       requests m /\
     session_state (wide_final (run_python python_host app_python m)) =
       session_state m /\
     sample (np_random (host (wide_final (run_python python_host app_python m)))) =
       sample (np_random (host m)) /\
     cursor (np_random (host (wide_final (run_python python_host app_python m)))) =
       (cursor (np_random (host m))
        + 3 * Z.to_nat (slider_answer 50 (host m)))%nat).
Proof.
  split.
  - intros S handle s.
    destruct (app_python_agrees S handle s) as (Hlog & _ & _).
    split; [| exact Hlog].
    rewrite Hlog. apply Forall_map, Forall_forall. intros ev _. reflexivity.
  - intros m. rewrite (machine_after_pass m).
    cbn [files requests session_state host np_random advance sample cursor].
    repeat split; try reflexivity. lia.
Qed.

(** ** What the page depends on (C9) *)

(** C9: two passes with the same slider answer and the same array drawn
    show the same page, whatever the state of the button and whatever
    else the two generators hold; the button decides only whether the
    re-run request is made. *)
Theorem page_depends_on_slider_and_draw (w1 w2 : world) :
  slider_answer 50 w1 = slider_answer 50 w2 ->
  fst (randn (slider_answer 50 w1) 3 (np_random w1)) =
    fst (randn (slider_answer 50 w2) 3 (np_random w2)) ->
  page (render w1) = page (render w2) /\
  (0 <= slider_answer 50 w1 ->
   (In st_experimental_rerun (calls (render w1)) <-> button_widget w1 = true)).
Proof.
  intros Hn Hd.
  destruct (Z.lt_ge_cases (slider_answer 50 w1) 0) as [Hneg | Hpos].
  - split; [| lia].
    rewrite (render_negative w1 Hneg).
    rewrite (render_negative w2) by (rewrite <- Hn; exact Hneg).
    rewrite Hn. reflexivity.
  - assert (Hpos2 : 0 <= slider_answer 50 w2) by (rewrite <- Hn; exact Hpos).
    rewrite (randn_in_range _ _ Hpos), (randn_in_range _ _ Hpos2) in Hd.
    cbn [fst] in Hd. injection Hd as Hrows.
    assert (Htab : table (Z.to_nat (slider_answer 50 w1)) (np_random w1) =
                   table (Z.to_nat (slider_answer 50 w2)) (np_random w2)).
    { unfold table. now rewrite Hrows. }
    split.
    + unfold page.
      rewrite (calls_in_range w1 Hpos), (calls_in_range w2 Hpos2).
      rewrite Htab, Hn.
      destruct (button_widget w1), (button_widget w2); reflexivity.
    + intros _. rewrite (calls_in_range w1 Hpos).
      unfold script_calls. destruct (button_widget w1).
      * split; [reflexivity |]. intros _.
        apply in_or_app. right. left. reflexivity.
      * split; [| discriminate]. intros H.
        apply in_app_or in H. destruct H as [H | H]; [| contradiction H].
        cbn in H.
        repeat (destruct H as [H | H]; [discriminate H |]).
        contradiction H.
Qed.

(** A first pass started with a click against a pass with the slider set
    to 50 by hand, no click, and a generator that agrees with the first
    on the hundred and fifty samples drawn only. *)
Lemma page_depends_on_slider_and_draw_witness :
  slider_answer 50 (World None true two_valued) =
    slider_answer 50 (World (Some 50) false two_valued_then_zero) /\
  fst (randn (slider_answer 50 (World None true two_valued)) 3 two_valued) =
    fst (randn (slider_answer 50 (World (Some 50) false two_valued_then_zero))
           3 two_valued_then_zero) /\
  page (render (World None true two_valued)) =
    page (render (World (Some 50) false two_valued_then_zero)) /\
  (0 <= slider_answer 50 (World None true two_valued) ->
   (In st_experimental_rerun (calls (render (World None true two_valued)))
    <-> button_widget (World None true two_valued) = true)).
Proof.
  split; [reflexivity |]. split; [reflexivity |].
  apply (page_depends_on_slider_and_draw
           (World None true two_valued)
           (World (Some 50) false two_valued_then_zero));
    reflexivity.
Defined.

(** ** Which samples a table holds *)

Lemma draw_row_cells (c : nat) :
  forall g, fst (draw_row c g) = map (sample g) (seq (cursor g) c).
Proof.
  induction c as [| c IH]; intros g; [reflexivity |].
  cbn [draw_row standard_normal].
  specialize (IH (Generator (sample g) (S (cursor g)))).
  destruct (draw_row c (Generator (sample g) (S (cursor g)))) as [xs g2].
  cbn in IH |- *. now rewrite IH.
Qed.

Lemma draw_rows_cells (r c : nat) :
  forall g,
    List.concat (fst (draw_rows r c g)) =
      map (sample g) (seq (cursor g) (r * c)).
Proof.
  induction r as [| r IH]; intros g; [reflexivity |].
  cbn [draw_rows].
  pose proof (draw_row_cells c g) as Hrow.
  destruct (draw_row_spec c g) as [_ Hg1].
  destruct (draw_row c g) as [row g1]. cbn in Hrow, Hg1. subst g1.
  specialize (IH (advance c g)).
  destruct (draw_rows r c (advance c g)) as [rest g2]. cbn in IH |- *.
  rewrite IH, Hrow, seq_app, map_app. reflexivity.
Qed.

Lemma table_cells (n : nat) (g : generator) :
  cells (table n g) = map (sample g) (seq (cursor g) (3 * n)).
Proof.
  unfold cells, table. cbn [values rows].
  rewrite draw_rows_cells. now rewrite (Nat.mul_comm n 3).
Qed.

(** X1: the table of a pass holds, read row after row, exactly the next
    3 N samples of the generator, in the order the generator yields
    them. *)
Theorem table_holds_next_samples (w : world) :
  0 <= slider_answer 50 w ->
  exists data : frame,
    views (render w) =
      [st_dataframe data; st_line_chart data; st_area_chart data] /\
    cells data =
      map (sample (np_random w))
          (seq (cursor (np_random w)) (3 * Z.to_nat (slider_answer 50 w))).
Proof.
  intros Hn.
  exists (table (Z.to_nat (slider_answer 50 w)) (np_random w)).
  split; [exact (views_in_range w Hn) | apply table_cells].
Qed.

(** The first pass of a fresh host: 150 samples, from sample 0 on. *)
Lemma table_holds_next_samples_witness :
  0 <= slider_answer 50 (World None false two_valued) /\
  exists data : frame,
    views (render (World None false two_valued)) =
      [st_dataframe data; st_line_chart data; st_area_chart data] /\
    cells data =
      map (sample (np_random (World None false two_valued)))
          (seq (cursor (np_random (World None false two_valued)))
               (3 * Z.to_nat (slider_answer 50 (World None false two_valued)))).
Proof.
  split; [cbn; lia |].
  apply (table_holds_next_samples (World None false two_valued)). cbn. lia.
Defined.

(** X2: a pass run on what the previous pass left behind, the slider
    untouched, shows a table of the same number of rows filled with the
    3 N samples that follow those of the previous table: no sample is
    shown by two passes. *)
Theorem next_pass_draws_following_samples (w : world) :
  0 <= slider_answer 50 w ->
  exists data : frame,
    views (render (final (render w))) =
      [st_dataframe data; st_line_chart data; st_area_chart data] /\
    nrows data = Z.to_nat (slider_answer 50 w) /\
    cells data =
      map (sample (np_random w))
          (seq (cursor (np_random w) + 3 * Z.to_nat (slider_answer 50 w))
               (3 * Z.to_nat (slider_answer 50 w))).
Proof.
  intros Hn.
  rewrite (render_in_range w Hn). cbn [final].
  set (n := Z.to_nat (slider_answer 50 w)).
  set (w' := World (slider_widget w) (button_widget w)
               (advance (n * 3) (np_random w))).
  assert (Hans : slider_answer 50 w' = slider_answer 50 w) by reflexivity.
  assert (Hn' : 0 <= slider_answer 50 w') by (rewrite Hans; exact Hn).
  exists (table n (advance (n * 3) (np_random w))).
  split; [| split].
  - rewrite (views_in_range w' Hn'). rewrite Hans. reflexivity.
  - apply table_shape.
  - rewrite table_cells. cbn [advance sample cursor].
    now rewrite (Nat.mul_comm n 3).
Qed.

(** Two passes in a row with the slider on 2: samples 6 to 11. *)
Lemma next_pass_draws_following_samples_witness :
  0 <= slider_answer 50 (World (Some 2) false two_valued) /\
  exists data : frame,
    views (render (final (render (World (Some 2) false two_valued)))) =
      [st_dataframe data; st_line_chart data; st_area_chart data] /\
    nrows data = Z.to_nat (slider_answer 50 (World (Some 2) false two_valued)) /\
    cells data =
      map (sample (np_random (World (Some 2) false two_valued)))
          (seq (cursor (np_random (World (Some 2) false two_valued))
                + 3 * Z.to_nat (slider_answer 50 (World (Some 2) false two_valued)))
               (3 * Z.to_nat (slider_answer 50 (World (Some 2) false two_valued)))).
Proof.
  split; [cbn; lia |].
  apply (next_pass_draws_following_samples (World (Some 2) false two_valued)).
  cbn. lia.
Defined.

(** ** The frame under an arbitrary host *)

Lemma pd_DataFrame_checked (a : ndarray) (cols : list string) (data : frame) :
  pd_DataFrame a cols = inr data ->
  columns data = cols /\ values data = a /\ width a = List.length cols.
Proof.
  unfold pd_DataFrame.
  destruct (Nat.eqb (List.length cols) (width a)) eqn:Hw; [| discriminate].
  intros H. injection H as <-. apply Nat.eqb_eq in Hw. auto.
Qed.

Ltac views_cut_short data k :=
  exists data, k; repeat split; try assumption; try reflexivity;
  right; split; [lia | eexists; reflexivity].

Ltac views_all_shown data :=
  exists data, 3%nat; repeat split; try assumption; try reflexivity;
  left; reflexivity.

(** X3: whatever the host answers, the draw included, the views a pass
    shows are the grid, then the line chart, then the area chart; fewer
    than the three are shown only when the pass ends with an exception,
    and all of them are given one frame whose columns are A, B, C over an
    array of second dimension 3: an array of another shape never reaches
    a view. *)
Theorem views_share_one_checked_frame
  (S : Type) (handle : forall c : call, S -> (exn + ret c) * S) (s : S) :
  exists (data : frame) (k : nat),
    columns data = ["A"; "B"; "C"] /\
    width (values data) = 3%nat /\
    views (run handle app s) =
      firstn k [st_dataframe data; st_line_chart data; st_area_chart data] /\
    (k = 3%nat \/
     (k < 3)%nat /\ exists e : exn, outcome (run handle app s) = Some e).
Proof.
  pose (empty := Frame ["A"; "B"; "C"] (Ndarray 3 [])).
  unfold views, calls. cbn [run app].
  do 5 (host_step handle; [views_cut_short empty 0%nat |]).
  host_step_as handle a; [views_cut_short empty 0%nat |].
  destruct (pd_DataFrame a ["A"; "B"; "C"]) as [e | data] eqn:Hdata; cbn;
    [views_cut_short empty 0%nat |].
  apply pd_DataFrame_checked in Hdata as (Hcols & Hvals & Hwidth).
  assert (Hw : width (values data) = 3%nat) by (rewrite Hvals; exact Hwidth).
  host_step handle; [views_cut_short data 0%nat |].
  host_step handle; [views_cut_short data 1%nat |].
  host_step handle; [views_cut_short data 1%nat |].
  host_step handle; [views_cut_short data 2%nat |].
  host_step handle; [views_cut_short data 2%nat |].
  host_step handle; [views_all_shown data |].
  host_step_as handle pressed; [views_all_shown data |].
  destruct pressed; cbn; [host_step handle |]; views_all_shown data.
Qed.

(** ** The echo identifies the slider value *)

Lemma str_int_injective (a b : Z) : str_int a = str_int b -> a = b.
Proof.
  intros H. apply (f_equal parse_int) in H.
  rewrite !parse_str_int in H. now injection H.
Qed.

Lemma echo_of_pass (w : world) :
  filter is_write (calls (render w)) =
    [st_write ("選択された値: " ++ str_int (slider_answer 50 w))%string].
Proof.
  destruct (Z.lt_ge_cases (slider_answer 50 w) 0) as [Hn | Hn].
  - rewrite (render_negative w Hn). reflexivity.
  - rewrite (calls_in_range w Hn). destruct (button_widget w); reflexivity.
Qed.

(** X4: the echo is written on every pass of the reference host, also
    on one whose draw is refused, and it tells slider values apart: two
    passes that write the same text had the same slider answer. *)
Theorem echo_identifies_slider_value (w1 w2 : world) :
  filter is_write (calls (render w1)) = filter is_write (calls (render w2)) ->
  slider_answer 50 w1 = slider_answer 50 w2.
Proof.
  rewrite !echo_of_pass. intros H. injection H as H.
  apply str_int_injective. exact H.
Qed.

(** A first pass and a pass with the slider set to 50 by hand. *)
Lemma echo_identifies_slider_value_witness :
  filter is_write (calls (render (World None true two_valued))) =
    filter is_write (calls (render (World (Some 50) false two_valued_then_zero))) /\
  slider_answer 50 (World None true two_valued) =
    slider_answer 50 (World (Some 50) false two_valued_then_zero).
Proof.
  split; [reflexivity |].
  apply (echo_identifies_slider_value
           (World None true two_valued)
           (World (Some 50) false two_valued_then_zero)).
  reflexivity.
Defined.

(** ** Passes that cannot fail *)

(** X5: on the reference host a pass whose slider answer is not negative
    never ends with an error: every call is answered, the one exception
    being the re-run request itself; the pass ends normally when the
    button was not clicked and with the request when it was, and in both
    cases all twelve elements are on the page. *)
Theorem in_range_pass_never_fails (w : world) :
  0 <= slider_answer 50 w ->
  Forall (fun ev : event =>
            snd ev = None \/ ev = (st_experimental_rerun, Some RerunException))
         (log (render w)) /\
  outcome (render w) =
    (if button_widget w then Some RerunException else None) /\
  List.length (page (render w)) = 12%nat.
Proof.
  intros Hn. unfold page, calls. rewrite (render_in_range w Hn).
  cbn [outcome log]. split; [| split; [reflexivity |]].
  - apply Forall_app. split.
    + apply Forall_map, Forall_forall. intros c _. left. reflexivity.
    + destruct (button_widget w); [| apply Forall_nil].
      apply Forall_cons; [right; reflexivity | apply Forall_nil].
  - destruct (button_widget w); reflexivity.
Qed.

(** The largest value the slider offers, on a pass started by a click. *)
Lemma in_range_pass_never_fails_witness :
  0 <= slider_answer 50 (World (Some 100) true two_valued) /\
  Forall (fun ev : event =>
            snd ev = None \/ ev = (st_experimental_rerun, Some RerunException))
         (log (render (World (Some 100) true two_valued))) /\
  outcome (render (World (Some 100) true two_valued)) =
    (if button_widget (World (Some 100) true two_valued)
     then Some RerunException else None) /\
  List.length (page (render (World (Some 100) true two_valued))) = 12%nat.
Proof.
  split; [cbn; lia |].
  apply (in_range_pass_never_fails (World (Some 100) true two_valued)).
  cbn. lia.
Defined.
